(** * debug_torque_connection.py: a shallow embedding and its properties

    The script is a linear diagnostic: it locates the Torque data
    directory, reads the embedded server's port from [server_port.txt],
    probes the port over TCP, queries a few HTTP endpoints and prints what it
    finds.  Everything it does is an interaction with the machine it runs on,
    so the embedding has three layers:

    - [Py]: the Python built-ins the script relies on ([str.strip], [int],
      [str] of an integer, slicing, truthiness);
    - [World]: the machine as the script observes it (operating system name,
      environment, filesystem tree, sockets, HTTP), together with a small
      trace-and-exception monad [M] in which the effectful functions run;
      a run yields the events it caused, in order, and a result or the
      exception that ended it;
    - [Torque]: the five functions of the script, statement by statement.

    A Python [str] is a Rocq [string], one [ascii] per character; the
    characters of text read from files are the code points 0..255.  The
    literals of the script that contain other characters appear as their
    UTF-8 bytes. *)

From Stdlib Require Import String Ascii ZArith List Bool Lia DecimalString.
Import ListNotations.

Local Open Scope string_scope.
Local Open Scope Z_scope.

(** ** Python built-ins *)

Module Py.

(** [str.isspace] on one character, for the code points below 256: the
    ASCII controls TAB..CR and FS..US, the space, NEL and the no-break
    space. *)
Definition isspace (c : ascii) : bool :=
  let n := nat_of_ascii c in
  ((9 <=? n) && (n <=? 13) || (28 <=? n) && (n <=? 32)
   || (n =? 133) || (n =? 160))%nat.

(** [str.isdecimal] on one character; below code point 256 the decimal
    digits are the ASCII ones. *)
Definition isdigit (c : ascii) : bool :=
  let n := nat_of_ascii c in ((48 <=? n) && (n <=? 57))%nat.

Definition digit_value (c : ascii) : Z := Z.of_nat (nat_of_ascii c) - 48.

(** Removal of the leading and of the trailing characters that satisfy
    [f]. *)
Fixpoint lstrip_by (f : ascii -> bool) (s : string) : string :=
  match s with
  | EmptyString => EmptyString
  | String c s' => if f c then lstrip_by f s' else s
  end.

Fixpoint rstrip_by (f : ascii -> bool) (s : string) : string :=
  match s with
  | EmptyString => EmptyString
  | String c s' =>
      match rstrip_by f s' with
      | EmptyString => if f c then EmptyString else String c EmptyString
      | r => String c r
      end
  end.

Definition strip_by (f : ascii -> bool) (s : string) : string :=
  rstrip_by f (lstrip_by f s).

(** [s.strip()] with no argument. *)
Definition strip (s : string) : string := strip_by isspace s.

(** The whitespace that [int] ignores around a literal: of the ASCII
    characters only TAB..CR and the space (not FS..US, which [str.strip]
    removes), and the whitespace beyond ASCII. *)
Definition isspace_int (c : ascii) : bool :=
  let n := nat_of_ascii c in
  ((9 <=? n) && (n <=? 13) || (n =? 32) || (n =? 133) || (n =? 160))%nat.

(** The run of digits at the head of [s], as [int] scans it in base 10:
    decimal digits, with single underscores allowed between two digits.
    [seen] tells whether the previous character was a digit and [count]
    is the number of digits so far (underscores are not counted).  The
    scan gives the value of the run, its number of digits and the text
    after it; it fails on a run that is empty, starts or ends with an
    underscore, or holds two underscores in a row. *)
Fixpoint scan_digits (acc : Z) (count : nat) (seen : bool) (s : string)
  : option (Z * nat * string) :=
  match s with
  | EmptyString => if seen then Some (acc, count, s) else None
  | String c s' =>
      if isdigit c then
        scan_digits (10 * acc + digit_value c) (S count) true s'
      else if Ascii.eqb c "_" then
        if seen then scan_digits acc count false s' else None
      else if seen then Some (acc, count, s) else None
  end.

(** The interpreter's cap on integer string conversion: with the limit
    [limit] ([sys.get_int_max_str_digits()], 4300 unless changed, 0 for
    none), a run of more than [limit] digits is refused; runs of at most
    640 digits are never refused. *)
Definition exceeds_limit (limit digits : nat) : bool :=
  ((0 <? limit) && (640 <? digits) && (limit <? digits))%nat.

Inductive int_result : Type :=
| IntValue (n : Z)
| InvalidLiteral
| ExceedsLimit (digits : nat).

(** [int(s)] for a string [s], in the order the interpreter proceeds:
    surrounding whitespace is ignored, then an optional sign, then the run
    of digits, which is checked against the limit before it is converted;
    anything left after the run makes the literal invalid.  Both failures
    are a [ValueError]. *)
Definition parse_int (limit : nat) (s : string) : int_result :=
  let t := strip_by isspace_int s in
  let '(negative, body) :=
    match t with
    | EmptyString => (false, t)
    | String c r =>
        if Ascii.eqb c "+" then (false, r)
        else if Ascii.eqb c "-" then (true, r)
        else (false, t)
    end in
  match scan_digits 0 0 false body with
  | None => InvalidLiteral
  | Some (v, digits, rest) =>
      if exceeds_limit limit digits then ExceedsLimit digits
      else
        match rest with
        | EmptyString => IntValue (if negative then - v else v)
        | String _ _ => InvalidLiteral
        end
  end.

(** The integer [int(s)] returns; [None] when it raises [ValueError]. *)
Definition int_of_str (limit : nat) (s : string) : option Z :=
  match parse_int limit s with
  | IntValue n => Some n
  | InvalidLiteral | ExceedsLimit _ => None
  end.

(** [str.isprintable] on one character, for the code points below 256:
    not the controls, DEL, 128 to 160 and the soft hyphen. *)
Definition isprintable (c : ascii) : bool :=
  let n := nat_of_ascii c in
  ((32 <=? n) && (n <=? 126) || (161 <=? n) && negb (n =? 173))%nat.

Definition hex_digit (n : nat) : ascii :=
  ascii_of_nat (if n <? 10 then 48 + n else 87 + n)%nat.

Definition backslash : ascii := ascii_of_nat 92.
Definition single_quote : ascii := ascii_of_nat 39.
Definition double_quote : ascii := ascii_of_nat 34.

Definition repr_char (quote c : ascii) : string :=
  let n := nat_of_ascii c in
  if Ascii.eqb c quote || Ascii.eqb c backslash then
    String backslash (String c EmptyString)
  else if (n =? 9)%nat then String backslash "t"
  else if (n =? 10)%nat then String backslash "n"
  else if (n =? 13)%nat then String backslash "r"
  else if isprintable c then String c EmptyString
  else
    String backslash
      (String "x" (String (hex_digit (n / 16)%nat)
                      (String (hex_digit (n mod 16)%nat) EmptyString))).

(** [c in s]. *)
Fixpoint contains (c : ascii) (s : string) : bool :=
  match s with
  | EmptyString => false
  | String d s' => Ascii.eqb c d || contains c s'
  end.

Fixpoint repr_body (quote : ascii) (s : string) : string :=
  match s with
  | EmptyString => String quote EmptyString
  | String c s' => repr_char quote c ++ repr_body quote s'
  end.

(** [repr(s)] for a string, for the code points below 256.  The quote is
    the double one when [s] holds a single quote and no double quote, the
    single one otherwise; the quote and the backslash are escaped, tab,
    newline and carriage return are written [\t], [\n], [\r], and the
    other characters that are not printable (the controls, DEL, 128 to
    160 and the soft hyphen) as [\x] with two hexadecimal digits. *)
Definition repr (s : string) : string :=
  let quote : ascii :=
    if contains single_quote s && negb (contains double_quote s)
    then double_quote else single_quote in
  String quote (repr_body quote s).

(** [str(n)] for an integer, as the f-strings of the script format ports
    and status codes. *)
Definition str_of_int (n : Z) : string := NilZero.string_of_int (Z.to_int n).

(** [s[:n]]: the first [n] characters, or all of [s] when it is shorter. *)
Fixpoint take (n : nat) (s : string) : string :=
  match n, s with
  | S n', String c s' => String c (take n' s')
  | _, _ => EmptyString
  end.

(** [c * n] for a one-character string [c]. *)
Fixpoint repeat_char (c : ascii) (n : nat) : string :=
  match n with
  | O => EmptyString
  | S n' => String c (repeat_char c n')
  end.

(** Truthiness, as [if x:] tests it, of the values the script tests:
    a string is false when empty, an integer when zero, and [None] is
    false.  A [Path] object is always true. *)
Definition truthy_str (s : string) : bool :=
  match s with EmptyString => false | _ => true end.

Definition truthy_int (n : Z) : bool := negb (n =? 0).

Definition truthy_opt_int (o : option Z) : bool :=
  match o with Some n => truthy_int n | None => false end.

(** [x == n] and [str(x)] for a value [x] that is an integer or [None]. *)
Definition eq_opt_int (o : option Z) (n : Z) : bool :=
  match o with Some m => m =? n | None => false end.

Definition str_of_opt_int (o : option Z) : string :=
  match o with Some n => str_of_int n | None => "None" end.

End Py.

(** ** The machine the script runs on *)

(** Exceptions.  [KeyboardInterrupt] stands for the exceptions that derive
    from [BaseException] only; all the others derive from [Exception].
    [RequestException] is [requests.exceptions.RequestException] with its
    subclasses (connection errors, timeouts, invalid URLs, ...). *)
Inductive exn : Type :=
| KeyboardInterrupt
| OSError (msg : string)
| ValueError (msg : string)
| OverflowError (msg : string)
| RequestException (msg : string)
| RuntimeError (msg : string).

Definition is_Exception (e : exn) : bool :=
  match e with KeyboardInterrupt => false | _ => true end.

Definition is_RequestException (e : exn) : bool :=
  match e with RequestException _ => true | _ => false end.

(** [str(e)]. *)
Definition str_of_exn (e : exn) : string :=
  match e with
  | KeyboardInterrupt => EmptyString
  | OSError m | ValueError m | OverflowError m
  | RequestException m | RuntimeError m => m
  end.

(** A [pathlib.Path]: its components.  [Path(s)] keeps the string [s] as
    one leading component (pathlib's own splitting of [s] into drive, root
    and parts is not modelled; the filesystem tree below is keyed by the
    same leading component), and [p / name] appends one component. *)
Definition path : Type := list string.

Definition Path (s : string) : path := [s].

Definition joinpath (p : path) (name : string) : path := (p ++ [name])%list.

Declare Scope path_scope.
Delimit Scope path_scope with path.
Bind Scope path_scope with path.
Infix "//" := joinpath (at level 40, left associativity) : path_scope.

(** The filesystem: a tree of directories and regular files.  A regular
    file carries what [open(p, 'r')] followed by [read()] gives: its text,
    or the exception raised (no permission, undecodable bytes, ...). *)
#[warnings="-register-all"]
Inductive node : Type :=
| File (data : exn + string)
| Dir (entries : list (string * node)).

Fixpoint find_entry (name : string) (entries : list (string * node))
  : option node :=
  match entries with
  | [] => None
  | (n, x) :: rest => if String.eqb n name then Some x else find_entry name rest
  end.

Fixpoint resolve (n : node) (p : path) : option node :=
  match p with
  | [] => Some n
  | name :: p' =>
      match n with
      | Dir entries =>
          match find_entry name entries with
          | Some n' => resolve n' p'
          | None => None
          end
      | File _ => None
      end
  end.

Record response : Type := { status_code : Z; text : string }.

Record World : Type := {
  os_name : string;                        (* os.name *)
  environ : string -> option string;       (* os.environ.get *)
  home : string;                           (* Path.home() *)
  root : node;                             (* the filesystem *)
  socket_socket : option exn;              (* socket.socket(...) raising *)
  connect_ex : string -> Z -> exn + Z;     (* sock.connect_ex((host, port)) *)
  requests_get : string -> exn + response; (* requests.get(url) *)
  int_max_str_digits : nat;                (* sys.get_int_max_str_digits() *)
  fspath : path -> string;                 (* str(p) for a Path *)
}.

(** What a run does to the outside, in order. *)
Inductive event : Type :=
| Print (line : string)
| Connect (host : string) (port : Z) (timeout : Z)
| HttpGet (url : string) (timeout : Z).

(** A computation: the events so far and either a result or the exception
    that ended it. *)
Definition M (A : Type) : Type := list event * (exn + A).

Definition ret {A} (a : A) : M A := ([], inr a).

Definition raise {A} (e : exn) : M A := ([], inl e).

Definition bind {A B} (m : M A) (k : A -> M B) : M B :=
  match m with
  | (t, inl e) => (t, inl e)
  | (t, inr a) => let (t', r) := k a in ((t ++ t')%list, r)
  end.

(** [try: m except <class>: h]: [catches] tells which exceptions the
    clause matches. *)
Definition try_except {A} (m : M A) (catches : exn -> bool)
  (h : exn -> M A) : M A :=
  match m with
  | (t, inl e) =>
      if catches e then let (t', r) := h e in ((t ++ t')%list, r)
      else (t, inl e)
  | (t, inr a) => (t, inr a)
  end.

Notation "x <- m ;; k" := (bind m (fun x => k))
  (at level 61, m at next level, right associativity).
Notation "m ;; k" := (bind m (fun _ => k))
  (at level 61, right associativity).

Definition print (line : string) : M unit := ([Print line], inr tt).

Definition trace {A} (m : M A) : list event := fst m.
Definition outcome {A} (m : M A) : exn + A := snd m.

Section Machine.

Variable w : World.

(** [str(p)] for a path: the rendering of pathlib on the machine (it
    joins the components with the separator of the platform and
    normalises the result). *)
Definition str_of_path (p : path) : string := fspath w p.

(** [p.exists()], when it answers.  ([Path.exists] hands on the errors
    of the system other than a missing entry, such as a directory that may
    not be searched; the filesystem tree has no such directory.) *)
Definition path_exists (p : path) : bool :=
  match resolve (root w) p with Some _ => true | None => false end.

(** [p.is_dir()]. *)
Definition path_is_dir (p : path) : bool :=
  match resolve (root w) p with Some (Dir _) => true | _ => false end.

(** [with open(p, 'r') as f: f.read()].  Opening a directory fails with
    [IsADirectoryError], on Windows with [PermissionError]; the message
    names the file by the [repr] of its path. *)
Definition open_read (p : path) : M string :=
  match resolve (root w) p with
  | Some (File (inr s)) => ret s
  | Some (File (inl e)) => raise e
  | Some (Dir _) =>
      raise (OSError
               ((if String.eqb (os_name w) "nt"
                 then "[Errno 13] Permission denied: "
                 else "[Errno 21] Is a directory: ")
                ++ Py.repr (str_of_path p)))
  | None =>
      raise (OSError ("[Errno 2] No such file or directory: "
                      ++ Py.repr (str_of_path p)))
  end.

(** [int(s)] as a computation: the [ValueError] carries the message of
    the interpreter, which shows at most 200 characters of [repr(s)]. *)
Definition int (s : string) : M Z :=
  let limit := int_max_str_digits w in
  match Py.parse_int limit s with
  | Py.IntValue n => ret n
  | Py.InvalidLiteral =>
      raise (ValueError ("invalid literal for int() with base 10: "
                         ++ Py.take 200 (Py.repr s)))
  | Py.ExceedsLimit digits =>
      raise (ValueError
               ("Exceeds the limit (" ++ Py.str_of_int (Z.of_nat limit)
                ++ " digits) for integer string conversion: value has "
                ++ Py.str_of_int (Z.of_nat digits)
                ++ " digits; use sys.set_int_max_str_digits() "
                ++ "to increase the limit"))
  end.

Definition socket_new : M unit :=
  match socket_socket w with Some e => raise e | None => ret tt end.

Definition sock_connect_ex (host : string) (port timeout : Z) : M Z :=
  ([Connect host port timeout], connect_ex w host port).

Definition http_get (url : string) (timeout : Z) : M response :=
  ([HttpGet url timeout], requests_get w url).

End Machine.

(** ** The script *)

Module Torque.

Import Py.

Local Open Scope path_scope.

Definition nl : string := String (ascii_of_nat 10) EmptyString.

Section Script.

Variable w : World.

(** [check_port_open(host, port, timeout=5)].  The bare [except:] matches
    every exception.  [sock.settimeout] and [sock.close] neither fail nor
    show outside; the timeout is recorded with the connection attempt. *)
Definition check_port_open (host : string) (port : Z) (timeout : Z) : M bool :=
  try_except
    (socket_new w ;;
     result <- sock_connect_ex w host port timeout ;;
     ret (result =? 0))
    (fun _ => true)
    (fun _ => ret false).

(** [check_http_endpoint(url, timeout=5)]. *)
Definition check_http_endpoint (url : string) (timeout : Z)
  : M (option Z * string) :=
  try_except
    (response <- http_get w url timeout ;;
     ret (Some (status_code response), take 200 (text response)))
    is_RequestException
    (fun e => ret (None, str_of_exn e)).

(** The list [possible_dirs] as [find_torque_data_dir] has built it when
    its loop starts.  [Path.home()] is the home directory the machine
    reports. *)
Definition possible_dirs : list path :=
  if String.eqb (os_name w) "nt" then
    match environ w "APPDATA" with
    | Some appdata =>
        if truthy_str appdata then [Path appdata // "com.torque.desktop"]
        else []
    | None => []
    end
  else
    let home := Path (home w) in
    [ home // ".local" // "share" // "com.torque.desktop";
      home // "Library" // "Application Support" // "com.torque.desktop";
      home // ".config" // "torque-desktop" ].

(** The loop [for dir_path in possible_dirs: if dir_path.exists(): return
    dir_path], and [return None] after it. *)
Fixpoint first_existing (dirs : list path) : option path :=
  match dirs with
  | [] => None
  | dir_path :: rest =>
      if path_exists w dir_path then Some dir_path else first_existing rest
  end.

Definition find_torque_data_dir : option path := first_existing possible_dirs.

(** [check_server_port_file()]. *)
Definition check_server_port_file : M (option Z) :=
  match find_torque_data_dir with
  | None =>
      print "❌ Could not find Torque data directory" ;;
      ret None
  | Some data_dir =>
      let port_file := data_dir // "server_port.txt" in
      if negb (path_exists w port_file) then
        print ("❌ Port file not found: " ++ str_of_path w port_file) ;;
        ret None
      else
        try_except
          (contents <- open_read w port_file ;;
           port <- int w (strip contents) ;;
           print ("✅ Found port file: " ++ str_of_path w port_file) ;;
           print ("📋 Embedded server port: " ++ str_of_int port) ;;
           ret (Some port))
          is_Exception
          (fun e =>
             print ("❌ Error reading port file: " ++ str_of_exn e) ;;
             ret None)
  end.

Definition base_url (port : Z) : string :=
  "http://127.0.0.1:" ++ str_of_int port.

Definition health_url (port : Z) : string := base_url port ++ "/health/health".
Definition ws_test_url (port : Z) : string := base_url port ++ "/ws".
Definition graphql_url (port : Z) : string := base_url port ++ "/graphql".

(** The lines of the connection summary. *)
Definition summary (server_port : Z) : list string :=
  [ nl ++ "✅ Server appears to be running correctly!";
    "🌐 Frontend should connect to:";
    "   Base URL: http://127.0.0.1:" ++ str_of_int server_port;
    "   WebSocket: ws://127.0.0.1:" ++ str_of_int server_port ++ "/ws";
    "   GraphQL: http://127.0.0.1:" ++ str_of_int server_port ++ "/graphql" ].

Fixpoint print_all (lines : list string) : M unit :=
  match lines with
  | [] => ret tt
  | l :: rest => print l ;; print_all rest
  end.

(** The branch of [main] taken when [server_port] is true. *)
Definition test_embedded (server_port : Z) : M unit :=
  print (nl ++ "2. Testing embedded server on port " ++ str_of_int server_port
         ++ "...") ;;
  open <- check_port_open "127.0.0.1" server_port 5 ;;
  if open then
    print ("✅ Port " ++ str_of_int server_port ++ " is open") ;;
    r <- check_http_endpoint (health_url server_port) 5 ;;
    let '(status_code, response) := r in
    if truthy_opt_int status_code then
      print ("✅ Health endpoint: " ++ str_of_opt_int status_code) ;;
      print ("📋 Response: " ++ response) ;;
      r <- check_http_endpoint (ws_test_url server_port) 5 ;;
      let '(ws_status, ws_response) := r in
      (if truthy_opt_int ws_status then
         print ("📡 WebSocket endpoint status: " ++ str_of_opt_int ws_status)
       else print ("❓ WebSocket endpoint test: " ++ ws_response)) ;;
      r <- check_http_endpoint (graphql_url server_port) 5 ;;
      let '(gql_status, gql_response) := r in
      (if truthy_opt_int gql_status then
         print ("🔗 GraphQL endpoint: " ++ str_of_opt_int gql_status)
       else print ("❓ GraphQL endpoint: " ++ gql_response)) ;;
      print_all (summary server_port)
    else
      print ("❌ Health endpoint failed: " ++ response)
  else
    print ("❌ Port " ++ str_of_int server_port ++ " is not accessible").

Definition test_ports : list Z := [8080; 8081; 3000; 3001].

(** The loop [for port in test_ports: ... break ... else: ...]: the [else]
    clause runs when the list is exhausted without [break]. *)
Fixpoint scan_ports (ports : list Z) : M unit :=
  match ports with
  | [] => print "❌ No Torque server found on common ports"
  | port :: rest =>
      open <- check_port_open "127.0.0.1" port 5 ;;
      if open then
        r <- check_http_endpoint (health_url port) 5 ;;
        let '(status_code, response) := r in
        if truthy_opt_int status_code && eq_opt_int status_code 200
        then print ("✅ Found Torque server on port " ++ str_of_int port)
        else scan_ports rest
      else scan_ports rest
  end.

(** The branch of [main] taken when [server_port] is false. *)
Definition test_defaults : M unit :=
  print "❌ No embedded server found" ;;
  print (nl ++ "3. Testing default development endpoints...") ;;
  scan_ports test_ports.

Definition tips : list string :=
  [ nl ++ repeat_char "=" 50;
    "📋 Troubleshooting Tips:";
    "1. Make sure the Torque desktop app is running";
    "2. Check the app logs for server startup errors";
    "3. Try restarting the desktop application";
    "4. Check if any firewall is blocking local connections" ].

Definition main : M unit :=
  print "🔍 Torque Desktop Connection Diagnostic Tool" ;;
  print (repeat_char "=" 50) ;;
  print (nl ++ "1. Checking for embedded server...") ;;
  server_port <- check_server_port_file ;;
  (match server_port with
   | Some port => if truthy_int port then test_embedded port else test_defaults
   | None => test_defaults
   end) ;;
  print_all tips.

End Script.

End Torque.

(** ** Vocabulary of the properties *)

Module Obs.

Import Py.

(** Every character of [s] satisfies [f]. *)
Fixpoint all_chars (f : ascii -> bool) (s : string) : bool :=
  match s with
  | EmptyString => true
  | String c s' => f c && all_chars f s'
  end.

Definition notspace (c : ascii) : bool := negb (isspace c).

(** The number a string of decimal digits denotes, by position: the first
    digit weighs [10 ^ (number of digits after it)]. *)
Fixpoint decimal_value (ds : string) : Z :=
  match ds with
  | EmptyString => 0
  | String c r => digit_value c * 10 ^ Z.of_nat (String.length r) + decimal_value r
  end.

(** A decimal integer as text, and its value. *)
Definition literal (negative : bool) (ds : string) : string :=
  if negative then String "-" ds else ds.

Definition literal_value (negative : bool) (ds : string) : Z :=
  if negative then - decimal_value ds else decimal_value ds.

(** The lines printed, and the network operations, of a trace. *)
Fixpoint printed (t : list event) : list string :=
  match t with
  | [] => []
  | Print l :: t' => l :: printed t'
  | _ :: t' => printed t'
  end.

Fixpoint network (t : list event) : list event :=
  match t with
  | [] => []
  | Print _ :: t' => network t'
  | e :: t' => e :: network t'
  end.

(** The ports of [ports] up to and including the first that satisfies
    [ok]; all of them when none does. *)
Fixpoint upto_first (ok : Z -> bool) (ports : list Z) : list Z :=
  match ports with
  | [] => []
  | p :: rest => if ok p then [p] else p :: upto_first ok rest
  end.

(** The line printed for the WebSocket or the GraphQL endpoint: [good]
    with the status when there is a true one, [bad] with the error text
    otherwise. *)
Definition endpoint_line (good bad : string) (r : option Z * string) : string :=
  if truthy_opt_int (fst r) then good ++ str_of_opt_int (fst r)
  else bad ++ snd r.

(** [s] begins with [prefix]. *)
Fixpoint starts_with (prefix s : string) : bool :=
  match prefix with
  | EmptyString => true
  | String a prefix' =>
      match s with
      | String b s' => Ascii.eqb a b && starts_with prefix' s'
      | EmptyString => false
      end
  end.

(** A network operation stays on the machine and is bounded in time: a
    connection goes to host 127.0.0.1, a request to a URL that begins with
    [http://127.0.0.1:], and either has the timeout of 5 seconds.
    Printing counts as local. *)
Definition local_event (e : event) : bool :=
  match e with
  | Print _ => true
  | Connect host _ timeout => String.eqb host "127.0.0.1" && (timeout =? 5)
  | HttpGet url timeout =>
      starts_with "http://127.0.0.1:" url && (timeout =? 5)
  end.

Definition local (t : list event) : Prop :=
  Forall (fun e => local_event e = true) t.

Section World.

Variable w : World.

(** A TCP connection to [host:port] succeeds: the socket is created and
    [connect_ex] answers 0. *)
Definition reachable (host : string) (port : Z) : bool :=
  match socket_socket w, connect_ex w host port with
  | None, inr 0 => true
  | _, _ => false
  end.

(** The request for [url] is answered, or fails inside the request layer
    (it does not end in an exception other than a [RequestException]). *)
Definition request_settles (url : string) : bool :=
  match requests_get w url with
  | inr _ => true
  | inl e => is_RequestException e
  end.

(** What [check_http_endpoint] hands back for a request that settles. *)
Definition answer (url : string) : option Z * string :=
  match requests_get w url with
  | inr r => (Some (status_code r), take 200 (text r))
  | inl e => (None, str_of_exn e)
  end.

(** The health endpoint of a local port answers 200. *)
Definition healthy (port : Z) : bool :=
  match requests_get w (Torque.health_url port) with
  | inr r => status_code r =? 200
  | inl _ => false
  end.

(** What the embedded-server branch does before it prints the summary,
    when the port is reachable and every request settles. *)
Definition embedded_events (port : Z) : list event :=
  [ Print (Torque.nl ++ "2. Testing embedded server on port "
           ++ str_of_int port ++ "...");
    Connect "127.0.0.1" port 5;
    Print ("✅ Port " ++ str_of_int port ++ " is open");
    HttpGet (Torque.health_url port) 5;
    Print ("✅ Health endpoint: "
           ++ str_of_opt_int (fst (answer (Torque.health_url port))));
    Print ("📋 Response: " ++ snd (answer (Torque.health_url port)));
    HttpGet (Torque.ws_test_url port) 5;
    Print (endpoint_line "📡 WebSocket endpoint status: "
             "❓ WebSocket endpoint test: " (answer (Torque.ws_test_url port)));
    HttpGet (Torque.graphql_url port) 5;
    Print (endpoint_line "🔗 GraphQL endpoint: " "❓ GraphQL endpoint: "
             (answer (Torque.graphql_url port))) ].

(** The three lines that open every run. *)
Definition banner : list event :=
  [ Print "🔍 Torque Desktop Connection Diagnostic Tool";
    Print (repeat_char "=" 50);
    Print (Torque.nl ++ "1. Checking for embedded server...") ].

(** A fallback port answers the scan: it is reachable and healthy. *)
Definition serves (port : Z) : bool :=
  reachable "127.0.0.1" port && healthy port.

(** The connection attempt of one call of [check_port_open] on the local
    host: none when the socket cannot be created. *)
Definition attempt (port : Z) : list event :=
  match socket_socket w with
  | Some _ => []
  | None => [Connect "127.0.0.1" port 5]
  end.

(** What the fallback scan does to the network for one port. *)
Definition probe (port : Z) : list event :=
  match socket_socket w with
  | Some _ => []
  | None =>
      Connect "127.0.0.1" port 5
      :: (if reachable "127.0.0.1" port
          then [HttpGet (Torque.health_url port) 5] else [])
  end.

End World.

End Obs.

(** ** Sample machines *)

Module Sample.

Definition ECONNREFUSED : Z := 111.

(** A Unix-like machine of user [u]; [tree] is what the home directory
    holds.  The interpreter has its default limit of 4300 digits, and
    paths are rendered by joining their components. *)
Definition unix (tree : list (string * node))
  (connect : string -> Z -> exn + Z) (get : string -> exn + response) : World :=
  {| os_name := "posix";
     environ := fun _ => None;
     home := "/home/u";
     root := Dir [("/home/u", Dir tree)];
     socket_socket := None;
     connect_ex := connect;
     requests_get := get;
     int_max_str_digits := 4300;
     fspath := String.concat "/" |}.

Definition refused : string -> Z -> exn + Z := fun _ _ => inr ECONNREFUSED.

Definition no_http : string -> exn + response :=
  fun _ => inl (RequestException "Connection refused").

(** The data directory under [~/.local/share], holding [entries]. *)
Definition data_dir_tree (entries : list (string * node)) : list (string * node) :=
  [(".local", Dir [("share", Dir [("com.torque.desktop", Dir entries)])])].

Definition port_file (contents : string) : list (string * node) :=
  data_dir_tree [("server_port.txt", File (inr contents))].

Definition only_port (p : Z) : string -> Z -> exn + Z :=
  fun host port =>
    if String.eqb host "127.0.0.1" && (port =? p) then inr 0
    else inr ECONNREFUSED.

(** A server on port 4321 whose three endpoints answer. *)
Definition serving (health_status : Z) : string -> exn + response :=
  fun url =>
    if String.eqb url "http://127.0.0.1:4321/health/health"
    then inr {| status_code := health_status; text := "ok" |}
    else if String.eqb url "http://127.0.0.1:4321/ws"
    then inr {| status_code := 426; text := "Upgrade Required" |}
    else if String.eqb url "http://127.0.0.1:4321/graphql"
    then inr {| status_code := 200; text := "{}" |}
    else inl (RequestException "Connection refused").

(** Nothing installed, nothing listening. *)
Definition bare : World := unix [] refused no_http.

(** The port file holds ["  4321  "] and the server answers. *)
Definition running (health_status : Z) : World :=
  unix (port_file "  4321  ") (only_port 4321) (serving health_status).

(** The port is open but every HTTP request times out. *)
Definition hanging : World :=
  unix (port_file "4321") (only_port 4321)
       (fun _ => inl (RequestException "Read timed out."))%string.

(** The port file is there but holds no number. *)
Definition garbled : World := unix (port_file "80a") refused no_http.

(** The data directory is there but holds no port file. *)
Definition portless : World := unix (data_dir_tree []) refused no_http.

(** [~/.local/share/com.torque.desktop] is a regular file. *)
Definition shadowed : World :=
  unix [(".local", Dir [("share",
          Dir [("com.torque.desktop", File (inr "4321"))])])]
       refused no_http.

(** A development server on port 3000 only, and no data directory. *)
Definition dev3000 : World :=
  unix [] (only_port 3000)
       (fun url =>
          if String.eqb url "http://127.0.0.1:3000/health/health"
          then inr {| status_code := 200; text := "ok" |}
          else inl (RequestException "Connection refused")).

(** A Windows machine whose data directory exists and holds port 5000. *)
Definition windows : World :=
  {| os_name := "nt";
     environ := fun k =>
       if String.eqb k "APPDATA" then Some "C:\Users\u\AppData\Roaming"
       else None;
     home := "C:\Users\u";
     root := Dir [("C:\Users\u\AppData\Roaming",
                   Dir [("com.torque.desktop",
                         Dir [("server_port.txt", File (inr "5000"))])])];
     socket_socket := None;
     connect_ex := refused;
     requests_get := no_http;
     int_max_str_digits := 4300;
     fspath := String.concat "\" |}.

(** The port file is there, the port is closed. *)
Definition closed : World := unix (port_file "4321") refused no_http.

(** The port file cannot be read. *)
Definition locked : World :=
  unix (data_dir_tree
          [("server_port.txt",
            File (inl (OSError "[Errno 13] Permission denied")))])
       refused no_http.

(** [server_port.txt] is a directory. *)
Definition port_dir : World :=
  unix (data_dir_tree [("server_port.txt", Dir [])]) refused no_http.

(** Reading the port file is interrupted from the keyboard. *)
Definition interrupted : World :=
  unix (data_dir_tree [("server_port.txt", File (inl KeyboardInterrupt))])
       refused no_http.

(** [~/.local/share/com.torque.desktop] is empty and the port file lies
    in [~/.config/torque-desktop]. *)
Definition misplaced : World :=
  unix [ (".local", Dir [("share", Dir [("com.torque.desktop", Dir [])])]);
         (".config",
          Dir [("torque-desktop",
                Dir [("server_port.txt", File (inr "4321"))])]) ]
       (only_port 4321) (serving 200).

(** The port is open and the health request is interrupted from the
    keyboard. *)
Definition aborted : World :=
  unix (port_file "4321") (only_port 4321) (fun _ => inl KeyboardInterrupt).

(** The port file holds an integer of 4301 digits between spaces. *)
Definition oversized : World :=
  unix (port_file ("  " ++ Py.repeat_char "1" 4301 ++ "  ")) refused no_http.

(** A server on port 4321 whose health endpoint answers 404 and whose
    [/ws] request fails outside the request layer. *)
Definition ws_crash : World :=
  unix (port_file "4321") (only_port 4321)
       (fun url =>
          if String.eqb url "http://127.0.0.1:4321/health/health"
          then inr {| status_code := 404; text := "Not Found" |}
          else inl (RuntimeError "unexpected")).

End Sample.

(** * Properties *)

(** ** Stripping and integer literals *)

Module PyFacts.

Import Py Obs.

Lemma digit_notspace c : isdigit c = true -> isspace c = false.
Proof.
  unfold isdigit, isspace. intros H.
  apply andb_true_iff in H as [H1 H2].
  apply Nat.leb_le in H1. apply Nat.leb_le in H2.
  repeat match goal with
  | |- context [(?a <=? ?b)%nat] => destruct (Nat.leb_spec a b)
  | |- context [(?a =? ?b)%nat] => destruct (Nat.eqb_spec a b)
  end; try reflexivity; lia.
Qed.

(** What [int] ignores, [str.strip] removes. *)
Lemma isspace_int_isspace c : isspace_int c = true -> isspace c = true.
Proof.
  unfold isspace_int, isspace.
  repeat match goal with
  | |- context [(?a <=? ?b)%nat] => destruct (Nat.leb_spec a b)
  | |- context [(?a =? ?b)%nat] => destruct (Nat.eqb_spec a b)
  end; cbn; try reflexivity; try discriminate; lia.
Qed.

Lemma digit_not_sign c :
  isdigit c = true -> Ascii.eqb c "+" = false /\ Ascii.eqb c "-" = false.
Proof.
  intros H. split.
  - destruct (Ascii.eqb_spec c "+") as [->|]; [discriminate H | reflexivity].
  - destruct (Ascii.eqb_spec c "-") as [->|]; [discriminate H | reflexivity].
Qed.

Lemma all_chars_digits_notspace ds :
  all_chars isdigit ds = true -> all_chars notspace ds = true.
Proof.
  induction ds as [|c ds IH]; simpl; [reflexivity|].
  intros H. apply andb_true_iff in H as [Hc Hds].
  unfold notspace at 1. rewrite (digit_notspace c Hc). simpl. auto.
Qed.

Section Strip.

Variable f : ascii -> bool.

Lemma lstrip_spaces_app l s :
  all_chars f l = true -> lstrip_by f (l ++ s) = lstrip_by f s.
Proof.
  induction l as [|c l IH]; simpl; [reflexivity|].
  intros H. apply andb_true_iff in H as [Hc Hl]. rewrite Hc. auto.
Qed.

Lemma lstrip_spaces r : all_chars f r = true -> lstrip_by f r = EmptyString.
Proof.
  induction r as [|c r IH]; simpl; [reflexivity|].
  intros H. apply andb_true_iff in H as [Hc Hr]. rewrite Hc. auto.
Qed.

Lemma rstrip_spaces r : all_chars f r = true -> rstrip_by f r = EmptyString.
Proof.
  induction r as [|c r IH]; simpl; [reflexivity|].
  intros H. apply andb_true_iff in H as [Hc Hr]. rewrite (IH Hr), Hc. reflexivity.
Qed.

Lemma rstrip_app_spaces s r :
  all_chars f r = true -> rstrip_by f (s ++ r) = rstrip_by f s.
Proof.
  intros Hr. induction s as [|c s IH]; simpl.
  - now apply rstrip_spaces.
  - now rewrite IH.
Qed.

Lemma rstrip_kept s :
  all_chars (fun c => negb (f c)) s = true -> rstrip_by f s = s.
Proof.
  induction s as [|c s IH]; simpl; [reflexivity|].
  intros H. apply andb_true_iff in H as [Hc Hs]. rewrite (IH Hs).
  apply negb_true_iff in Hc. rewrite Hc.
  destruct s; reflexivity.
Qed.

Lemma lstrip_kept s r :
  all_chars (fun c => negb (f c)) s = true -> s <> EmptyString ->
  lstrip_by f (s ++ r) = s ++ r.
Proof.
  destruct s as [|c s]; [congruence|]. simpl. intros H _.
  apply andb_true_iff in H as [Hc _].
  apply negb_true_iff in Hc. now rewrite Hc.
Qed.

(** Stripping removes the padding and nothing else. *)
Lemma strip_by_padded l s r :
  all_chars f l = true -> all_chars f r = true ->
  all_chars (fun c => negb (f c)) s = true -> strip_by f (l ++ s ++ r) = s.
Proof.
  intros Hl Hr Hs. unfold strip_by. rewrite (lstrip_spaces_app _ _ Hl).
  destruct (string_dec s EmptyString) as [->|Hne].
  - simpl. now rewrite (lstrip_spaces _ Hr).
  - rewrite (lstrip_kept _ _ Hs Hne), (rstrip_app_spaces _ _ Hr).
    now apply rstrip_kept.
Qed.

Lemma strip_by_kept s :
  all_chars (fun c => negb (f c)) s = true -> strip_by f s = s.
Proof.
  intros Hs. unfold strip_by.
  replace (lstrip_by f s) with s; [now apply rstrip_kept|].
  destruct s as [|c s]; [reflexivity|]. simpl in *.
  apply andb_true_iff in Hs as [Hc _].
  apply negb_true_iff in Hc. now rewrite Hc.
Qed.

End Strip.

Lemma strip_padded l s r :
  all_chars isspace l = true -> all_chars isspace r = true ->
  all_chars notspace s = true -> strip (l ++ s ++ r) = s.
Proof. apply strip_by_padded. Qed.

Lemma notspace_not_int_space s :
  all_chars notspace s = true ->
  all_chars (fun c => negb (isspace_int c)) s = true.
Proof.
  induction s as [|c s IH]; simpl; [reflexivity|].
  intros H. apply andb_true_iff in H as [Hc Hs]. rewrite (IH Hs), andb_true_r.
  unfold notspace in Hc. apply negb_true_iff in Hc. apply negb_true_iff.
  destruct (isspace_int c) eqn:Hi; [|reflexivity].
  now rewrite (isspace_int_isspace c Hi) in Hc.
Qed.

Lemma scan_digits_value ds : forall acc count seen,
  all_chars isdigit ds = true ->
  scan_digits acc count seen ds =
  if seen || negb (String.eqb ds EmptyString) then
    Some (acc * 10 ^ Z.of_nat (String.length ds) + decimal_value ds,
          (count + String.length ds)%nat, EmptyString)
  else None.
Proof.
  induction ds as [|c ds IH]; intros acc count seen H.
  - simpl. rewrite orb_false_r, Nat.add_0_r.
    destruct seen; [do 3 f_equal; lia | reflexivity].
  - simpl in H. apply andb_true_iff in H as [Hc Hds].
    cbn [scan_digits]. rewrite Hc, (IH _ _ _ Hds).
    rewrite orb_true_l.
    replace (seen || negb (String.eqb (String c ds) EmptyString)) with true
      by (simpl; now rewrite orb_true_r).
    cbn [String.length decimal_value].
    rewrite Nat2Z.inj_succ, Z.pow_succ_r by lia.
    f_equal. f_equal. f_equal; [ring | lia].
Qed.

Lemma literal_notspace neg ds :
  all_chars isdigit ds = true -> all_chars notspace (literal neg ds) = true.
Proof.
  intros H. destruct neg; simpl; auto using all_chars_digits_notspace.
Qed.

(** [int] reads a decimal literal within the limit as the number it
    denotes. *)
Lemma int_of_str_literal limit neg ds :
  all_chars isdigit ds = true -> ds <> EmptyString ->
  exceeds_limit limit (String.length ds) = false ->
  int_of_str limit (literal neg ds) = Some (literal_value neg ds).
Proof.
  intros Hd Hne Hlim. unfold int_of_str, parse_int.
  rewrite (strip_by_kept _ _
             (notspace_not_int_space _ (literal_notspace neg ds Hd))).
  assert (Hscan : scan_digits 0 0 false ds
                  = Some (decimal_value ds, String.length ds, EmptyString)).
  { rewrite (scan_digits_value ds 0 0 false Hd).
    destruct ds; [congruence|]. reflexivity. }
  destruct neg; cbn [literal literal_value].
  - cbn [Ascii.eqb Bool.eqb]. cbv beta iota. rewrite Hscan, Hlim. reflexivity.
  - destruct ds as [|c ds]; [congruence|].
    assert (Hc : isdigit c = true).
    { simpl in Hd. now apply andb_true_iff in Hd as [Hc _]. }
    destruct (digit_not_sign c Hc) as [-> ->].
    cbv beta iota. rewrite Hscan, Hlim. reflexivity.
Qed.

(** A literal over the limit is refused. *)
Lemma int_of_str_over_limit limit neg ds :
  all_chars isdigit ds = true -> ds <> EmptyString ->
  exceeds_limit limit (String.length ds) = true ->
  int_of_str limit (literal neg ds) = None.
Proof.
  intros Hd Hne Hlim. unfold int_of_str, parse_int.
  rewrite (strip_by_kept _ _
             (notspace_not_int_space _ (literal_notspace neg ds Hd))).
  assert (Hscan : scan_digits 0 0 false ds
                  = Some (decimal_value ds, String.length ds, EmptyString)).
  { rewrite (scan_digits_value ds 0 0 false Hd).
    destruct ds; [congruence|]. reflexivity. }
  destruct neg; cbn [literal literal_value].
  - cbn [Ascii.eqb Bool.eqb]. cbv beta iota. rewrite Hscan, Hlim. reflexivity.
  - destruct ds as [|c ds]; [congruence|].
    assert (Hc : isdigit c = true).
    { simpl in Hd. now apply andb_true_iff in Hd as [Hc _]. }
    destruct (digit_not_sign c Hc) as [-> ->].
    cbv beta iota. rewrite Hscan, Hlim. reflexivity.
Qed.

End PyFacts.

(** ** How computations run *)

Module RunFacts.

Import Py Obs.

Local Open Scope path_scope.

Lemma bind_run {A B} (t : list event) (a : A) (k : A -> M B) :
  bind (t, inr a) k = ((t ++ trace (k a))%list, outcome (k a)).
Proof. unfold bind, trace, outcome. now destruct (k a). Qed.

Lemma run_eta {A} (m : M A) : m = (trace m, outcome m).
Proof. now destruct m. Qed.

Lemma printed_app t t' : printed (t ++ t') = (printed t ++ printed t')%list.
Proof. induction t as [|[] t IH]; simpl; auto. now rewrite IH. Qed.

Lemma network_app t t' : network (t ++ t') = (network t ++ network t')%list.
Proof. induction t as [|[] t IH]; simpl; auto; now rewrite IH. Qed.

Lemma printed_map_Print lines : printed (map Print lines) = lines.
Proof. induction lines; simpl; congruence. Qed.

Lemma network_map_Print lines : network (map Print lines) = [].
Proof. induction lines; simpl; congruence. Qed.

Lemma print_all_run lines :
  Torque.print_all lines = (map Print lines, inr tt).
Proof.
  induction lines as [|l lines IH]; [reflexivity|].
  cbn [Torque.print_all map]. unfold print. rewrite bind_run, IH. reflexivity.
Qed.

Lemma take_length n : forall s,
  String.length (take n s) = Nat.min n (String.length s).
Proof. induction n as [|n IH]; intros [|c s]; simpl; auto. Qed.

Lemma take_prefix n : forall s, exists rest, s = take n s ++ rest.
Proof.
  induction n as [|n IH]; intros s.
  - exists s. destruct s; reflexivity.
  - destruct s as [|c s]; [now exists EmptyString|].
    destruct (IH s) as [rest Hrest]. exists rest. simpl. now rewrite <- Hrest.
Qed.

Section World.

Variable w : World.

(** *** The filesystem and the locator *)

Lemma path_exists_resolve p n :
  resolve (root w) p = Some n -> path_exists w p = true.
Proof. unfold path_exists. now intros ->. Qed.

Lemma resolve_app n p q :
  resolve n (p ++ q)%list
  = match resolve n p with Some n' => resolve n' q | None => None end.
Proof.
  revert n. induction p as [|x p IH]; intros n; simpl; [reflexivity|].
  destruct n as [|entries]; [reflexivity|].
  destruct (find_entry x entries); auto.
Qed.

(** Nothing exists below a path that is not a directory. *)
Lemma not_dir_no_child d name :
  path_is_dir w d = false -> path_exists w (d // name) = false.
Proof.
  unfold path_exists, path_is_dir, joinpath. rewrite resolve_app.
  destruct (resolve (root w) d) as [[|]|]; try discriminate; reflexivity.
Qed.

Lemma first_existing_spec dirs :
  match Torque.first_existing w dirs with
  | Some d =>
      exists before after,
        dirs = (before ++ d :: after)%list /\ path_exists w d = true
        /\ forall q, In q before -> path_exists w q = false
  | None => forall q, In q dirs -> path_exists w q = false
  end.
Proof.
  induction dirs as [|p dirs IH]; simpl.
  - tauto.
  - destruct (path_exists w p) eqn:Hp.
    + exists [], dirs. simpl. tauto.
    + destruct (Torque.first_existing w dirs) as [d|].
      * destruct IH as (before & after & -> & Hd & Hbefore).
        exists (p :: before), after. simpl. repeat split; auto.
        intros q [<-|Hq]; auto.
      * intros q [<-|Hq]; auto.
Qed.

Lemma first_existing_exists dirs d :
  Torque.first_existing w dirs = Some d ->
  In d dirs /\ path_exists w d = true.
Proof.
  induction dirs as [|p dirs IH]; simpl; [discriminate|].
  destruct (path_exists w p) eqn:Hp.
  - intros [= <-]. auto.
  - intros H. destruct (IH H). auto.
Qed.

(** *** The port reader *)

Lemma int_returns s n :
  int_of_str (int_max_str_digits w) s = Some n -> int w s = ret n.
Proof.
  unfold int_of_str, int. cbv zeta.
  destruct (parse_int _ s); intros H; [now injection H as -> | | ];
    discriminate H.
Qed.

Lemma int_raises s :
  int_of_str (int_max_str_digits w) s = None ->
  exists text, int w s = raise (ValueError text).
Proof.
  unfold int_of_str, int. cbv zeta.
  destruct (parse_int _ s); intros H; [discriminate H| |]; eauto.
Qed.

Lemma reader_port_file_missing d :
  Torque.find_torque_data_dir w = Some d ->
  path_exists w (d // "server_port.txt") = false ->
  Torque.check_server_port_file w
  = ([Print ("❌ Port file not found: "
             ++ str_of_path w (d // "server_port.txt"))], inr None).
Proof.
  intros Hdir Hex. unfold Torque.check_server_port_file.
  now rewrite Hdir, Hex.
Qed.

Lemma reader_only_prints :
  network (trace (Torque.check_server_port_file w)) = [].
Proof.
  unfold Torque.check_server_port_file.
  destruct (Torque.find_torque_data_dir w) as [d|]; [|reflexivity].
  destruct (path_exists w _); [|reflexivity]. cbn [negb].
  unfold open_read.
  destruct (resolve _ _) as [[[e|s]|]|]; try (destruct e; reflexivity);
    try reflexivity.
  cbv beta iota delta [bind ret raise]. unfold int. cbv zeta.
  destruct (parse_int _ _); reflexivity.
Qed.

(** *** The prober and the checker *)

Lemma check_port_open_run host port timeout :
  Torque.check_port_open w host port timeout
  = (match socket_socket w with
     | Some _ => []
     | None => [Connect host port timeout]
     end, inr (reachable w host port)).
Proof.
  unfold Torque.check_port_open, socket_new, sock_connect_ex, reachable.
  destruct (socket_socket w); cbn; [reflexivity|].
  destruct (connect_ex w host port) as [e|c]; cbn; [reflexivity|].
  destruct c; reflexivity.
Qed.

Lemma reachable_socket host port :
  reachable w host port = true -> socket_socket w = None.
Proof. unfold reachable. now destruct (socket_socket w). Qed.

Lemma check_http_endpoint_run url timeout :
  request_settles w url = true ->
  Torque.check_http_endpoint w url timeout
  = ([HttpGet url timeout], inr (answer w url)).
Proof.
  unfold request_settles, answer, Torque.check_http_endpoint, http_get.
  destruct (requests_get w url) as [e|r]; intros H; cbn -[take].
  - now rewrite H.
  - reflexivity.
Qed.

(** *** The fallback scan *)

Lemma truthy_and_200 c :
  truthy_opt_int (Some c) && eq_opt_int (Some c) 200 = (c =? 200).
Proof.
  unfold truthy_opt_int, truthy_int, eq_opt_int.
  destruct (Z.eqb_spec c 200) as [->|]; [reflexivity|apply andb_false_r].
Qed.

Lemma scan_ports_cons p rest :
  (reachable w "127.0.0.1" p = true ->
   request_settles w (Torque.health_url p) = true) ->
  Torque.scan_ports w (p :: rest)
  = if serves w p then
      ((probe w p
        ++ [Print ("✅ Found Torque server on port " ++ str_of_int p)])%list,
       inr tt)
    else
      ((probe w p ++ trace (Torque.scan_ports w rest))%list,
       outcome (Torque.scan_ports w rest)).
Proof.
  intros Hs. cbn [Torque.scan_ports].
  rewrite check_port_open_run, bind_run. unfold serves, probe, healthy.
  destruct (reachable w "127.0.0.1" p) eqn:Hr; cbn [andb].
  - rewrite (reachable_socket _ _ Hr).
    rewrite (check_http_endpoint_run _ 5 (Hs eq_refl)), bind_run.
    unfold answer.
    destruct (requests_get w (Torque.health_url p)) as [e|r].
    + reflexivity.
    + rewrite truthy_and_200. destruct (status_code r =? 200); reflexivity.
  - destruct (socket_socket w); cbn; now rewrite ?app_nil_r.
Qed.

Lemma probe_events p :
  network (probe w p) = probe w p /\ printed (probe w p) = [].
Proof.
  unfold probe. destruct (socket_socket w); [easy|].
  now destruct (reachable _ _ _).
Qed.

Lemma scan_ports_run ports :
  (forall p, In p ports -> reachable w "127.0.0.1" p = true ->
             request_settles w (Torque.health_url p) = true) ->
  outcome (Torque.scan_ports w ports) = inr tt
  /\ network (trace (Torque.scan_ports w ports))
     = flat_map (probe w) (upto_first (serves w) ports)
  /\ printed (trace (Torque.scan_ports w ports))
     = [match find (serves w) ports with
        | Some p => "✅ Found Torque server on port " ++ str_of_int p
        | None => "❌ No Torque server found on common ports"
        end].
Proof.
  induction ports as [|p ports IH]; intros Hs.
  - repeat split.
  - destruct (IH (fun q Hq => Hs q (or_intror Hq))) as (IHo & IHn & IHp).
    rewrite (scan_ports_cons p ports (Hs p (or_introl eq_refl))).
    cbn [upto_first find flat_map]. destruct (probe_events p) as [Hn Hp].
    destruct (serves w p); unfold trace, outcome; cbn [fst snd].
    + rewrite network_app, printed_app, Hn, Hp. repeat split.
    + fold (trace (Torque.scan_ports w ports)).
      rewrite network_app, printed_app, Hn, Hp, IHn, IHp. repeat split.
      exact IHo.
Qed.

(** *** The orchestrator *)

Lemma test_embedded_run port :
  reachable w "127.0.0.1" port = true ->
  truthy_opt_int (fst (answer w (Torque.health_url port))) = true ->
  request_settles w (Torque.health_url port) = true ->
  request_settles w (Torque.ws_test_url port) = true ->
  request_settles w (Torque.graphql_url port) = true ->
  Torque.test_embedded w port
  = ((embedded_events w port ++ map Print (Torque.summary port))%list, inr tt).
Proof.
  intros Hr Hh Sh Sw Sg.
  unfold Torque.test_embedded, embedded_events, print, endpoint_line.
  rewrite bind_run, check_port_open_run, bind_run, Hr.
  rewrite (reachable_socket _ _ Hr), bind_run.
  rewrite (check_http_endpoint_run _ 5 Sh), bind_run.
  rewrite (check_http_endpoint_run _ 5 Sw), (check_http_endpoint_run _ 5 Sg).
  destruct (answer w (Torque.health_url port)) as [hs hb].
  destruct (answer w (Torque.ws_test_url port)) as [ws wb].
  destruct (answer w (Torque.graphql_url port)) as [gs gb].
  cbn [fst snd] in Hh |- *. rewrite Hh, !bind_run.
  destruct (truthy_opt_int ws), (truthy_opt_int gs);
    rewrite !bind_run, print_all_run; reflexivity.
Qed.

(** [main] when the port reader and the branch taken both return. *)
Lemma main_run server_port :
  outcome (Torque.check_server_port_file w) = inr server_port ->
  let branch :=
    match server_port with
    | Some port =>
        if truthy_int port then Torque.test_embedded w port
        else Torque.test_defaults w
    | None => Torque.test_defaults w
    end in
  outcome branch = inr tt ->
  Torque.main w
  = ((banner ++ trace (Torque.check_server_port_file w)
      ++ trace branch ++ map Print Torque.tips)%list, inr tt).
Proof.
  intros Hreader branch Hbranch. unfold Torque.main, print.
  rewrite !bind_run.
  rewrite (run_eta (Torque.check_server_port_file w)), Hreader, bind_run.
  fold branch. rewrite (run_eta branch), Hbranch, bind_run, print_all_run.
  unfold trace, outcome. cbn [fst snd app]. reflexivity.
Qed.

Lemma test_defaults_run :
  (forall p, In p Torque.test_ports -> reachable w "127.0.0.1" p = true ->
             request_settles w (Torque.health_url p) = true) ->
  outcome (Torque.test_defaults w) = inr tt
  /\ network (trace (Torque.test_defaults w))
     = flat_map (probe w) (upto_first (serves w) Torque.test_ports)
  /\ printed (trace (Torque.test_defaults w))
     = [ "❌ No embedded server found";
         Torque.nl ++ "3. Testing default development endpoints...";
         match find (serves w) Torque.test_ports with
         | Some p => "✅ Found Torque server on port " ++ str_of_int p
         | None => "❌ No Torque server found on common ports"
         end ].
Proof.
  intros Hs. destruct (scan_ports_run _ Hs) as (Ho & Hn & Hp).
  unfold Torque.test_defaults, print. rewrite !bind_run.
  unfold trace, outcome in *. cbn [fst snd]. rewrite !network_app, !printed_app.
  rewrite Hn, Hp. repeat split. exact Ho.
Qed.

End World.

End RunFacts.

(** ** The data directory locator *)

Module Locator.

Import Py Obs RunFacts.

Local Open Scope path_scope.

(** C5.  The locator returns the first candidate that exists, in a fixed
    order that depends on the platform.  On Windows ([os.name] is ["nt"])
    the only candidate is [com.torque.desktop] under the value of
    [APPDATA], and there is none when [APPDATA] is unset (or set to the
    empty string); elsewhere the candidates are, in this order,
    [~/.local/share/com.torque.desktop],
    [~/Library/Application Support/com.torque.desktop] and
    [~/.config/torque-desktop].  When the locator returns [d], the
    candidates listed before [d] do not exist and [d] does; when it returns
    nothing, no candidate exists. *)
Theorem first_existing_candidate (w : World) :
  let candidates : list (list string) :=
    if String.eqb (os_name w) "nt" then
      match environ w "APPDATA" with
      | None | Some EmptyString => []
      | Some appdata => [[appdata; "com.torque.desktop"]]
      end
    else
      [ [home w; ".local"; "share"; "com.torque.desktop"];
        [home w; "Library"; "Application Support"; "com.torque.desktop"];
        [home w; ".config"; "torque-desktop"] ] in
  match Torque.find_torque_data_dir w with
  | Some d =>
      exists before after,
        candidates = (before ++ d :: after)%list /\ path_exists w d = true
        /\ forall q, In q before -> path_exists w q = false
  | None => forall q, In q candidates -> path_exists w q = false
  end.
Proof.
  intros candidates.
  replace candidates with (Torque.possible_dirs w).
  - apply first_existing_spec.
  - unfold candidates, Torque.possible_dirs.
    destruct (os_name w =? "nt")%string; [|reflexivity].
    destruct (environ w "APPDATA") as [[|c a]|]; reflexivity.
Qed.




End Locator.

(** ** The port reader *)

Module PortReader.

Import Py Obs PyFacts RunFacts.

Local Open Scope path_scope.






End PortReader.

(** ** The reachability prober *)

Module Prober.

Import Py Obs RunFacts.

(** C2.  [check_port_open] always returns a boolean and never raises: the
    result is false when creating the socket raises, when [connect_ex]
    raises, and when [connect_ex] answers an error number other than 0
    (nothing reachable on the port); it is true when the socket is created
    and [connect_ex] answers 0. *)
Theorem never_raises (w : World) (host : string) (port timeout : Z) :
  let result := outcome (Torque.check_port_open w host port timeout) in
  (exists b, result = inr b)
  /\ (forall e, socket_socket w = Some e -> result = inr false)
  /\ (forall e, connect_ex w host port = inl e -> result = inr false)
  /\ (forall errno, connect_ex w host port = inr errno -> errno <> 0 ->
      result = inr false)
  /\ (socket_socket w = None -> connect_ex w host port = inr 0 ->
      result = inr true).
Proof.
  unfold Torque.check_port_open, socket_new, sock_connect_ex.
  destruct (socket_socket w) as [e0|]; cbn.
  - repeat split; eauto; try discriminate.
    all: intros; destruct (connect_ex w host port); reflexivity.
  - destruct (connect_ex w host port) as [e|errno] eqn:Hc; cbn.
    + repeat split; eauto; discriminate.
    + repeat split; eauto; try discriminate.
      * intros c [= <-] Hne. apply Z.eqb_neq in Hne. now rewrite Hne.
      * intros _ [= ->]. reflexivity.
Qed.

Lemma never_raises_witness :
  outcome (Torque.check_port_open Sample.bare "127.0.0.1" 8080 5) = inr false
  /\ outcome (Torque.check_port_open (Sample.running 200) "127.0.0.1" 4321 5)
     = inr true.
Proof.
  split.
  - destruct (never_raises Sample.bare "127.0.0.1" 8080 5)
      as (_ & _ & _ & Hrefused & _).
    apply (Hrefused Sample.ECONNREFUSED); [reflexivity|].
    unfold Sample.ECONNREFUSED. lia.
  - destruct (never_raises (Sample.running 200) "127.0.0.1" 4321 5)
      as (_ & _ & _ & _ & Hopen).
    apply Hopen; reflexivity.
Defined.

End Prober.

(** ** The endpoint checker *)

Module Checker.

Import Py Obs RunFacts.

(** C3.  For every URL: when the request is answered, the checker returns
    the status code with the first 200 characters of the body (the whole
    body when it is shorter); when the request raises a
    [RequestException], it returns none with the text of the exception;
    and whatever it raises itself is not a [RequestException]. *)
Theorem status_and_prefix_or_error (w : World) (url : string) (timeout : Z) :
  let result := outcome (Torque.check_http_endpoint w url timeout) in
  (forall r, requests_get w url = inr r ->
     result = inr (Some (status_code r), take 200 (text r))
     /\ String.length (take 200 (text r))
        = Nat.min 200 (String.length (text r))
     /\ exists rest, text r = take 200 (text r) ++ rest)
  /\ (forall e, requests_get w url = inl e -> is_RequestException e = true ->
      result = inr (None, str_of_exn e))
  /\ (forall e, result = inl e -> is_RequestException e = false).
Proof.
  unfold Torque.check_http_endpoint, http_get.
  destruct (requests_get w url) as [e|r] eqn:Hget; cbn -[take].
  - split; [discriminate|]. split.
    + intros e' [= <-] He. now rewrite He.
    + intros e'. destruct (is_RequestException e) eqn:He; cbn.
      * discriminate.
      * now intros [= <-].
  - split; [|split; discriminate].
    intros r' [= <-]. split; [reflexivity|].
    split; [apply take_length | apply take_prefix].
Qed.

Lemma status_and_prefix_or_error_witness :
  outcome (Torque.check_http_endpoint (Sample.running 200)
             "http://127.0.0.1:4321/health/health" 5)
  = inr (Some 200, "ok")
  /\ outcome (Torque.check_http_endpoint Sample.bare
                "http://127.0.0.1:8080/health/health" 5)
     = inr (None, "Connection refused").
Proof.
  split.
  - destruct (status_and_prefix_or_error (Sample.running 200)
                "http://127.0.0.1:4321/health/health" 5) as (Hok & _ & _).
    exact (proj1 (Hok {| status_code := 200; text := "ok" |} eq_refl)).
  - destruct (status_and_prefix_or_error Sample.bare
                "http://127.0.0.1:8080/health/health" 5) as (_ & Herr & _).
    exact (Herr (RequestException "Connection refused") eq_refl eq_refl).
Defined.

End Checker.

(** ** The orchestrator *)

Module Orchestrator.

Import Py Obs RunFacts.

Section Embedded.

Variables (w : World) (port : Z) (health : response).

Hypothesis port_read :
  outcome (Torque.check_server_port_file w) = inr (Some port).
Hypothesis port_nonzero : port <> 0.
Hypothesis port_reachable : reachable w "127.0.0.1" port = true.
Hypothesis health_answered :
  requests_get w (Torque.health_url port) = inr health.
Hypothesis status_nonzero : status_code health <> 0.
Hypothesis ws_settles : request_settles w (Torque.ws_test_url port) = true.
Hypothesis graphql_settles :
  request_settles w (Torque.graphql_url port) = true.

(** The run of [main] through the embedded-server branch, up to the lines
    printed before the summary. *)
Lemma main_embedded_run :
  Torque.main w
  = ((banner ++ trace (Torque.check_server_port_file w)
      ++ (embedded_events w port ++ map Print (Torque.summary port))
      ++ map Print Torque.tips)%list, inr tt).
Proof.
  assert (Hanswer : answer w (Torque.health_url port)
                    = (Some (status_code health), take 200 (text health))).
  { unfold answer. now rewrite health_answered. }
  assert (Htruthy : truthy_opt_int (fst (answer w (Torque.health_url port)))
                    = true).
  { rewrite Hanswer. cbn [fst truthy_opt_int]. unfold truthy_int.
    now apply negb_true_iff, Z.eqb_neq. }
  assert (Hsettles : request_settles w (Torque.health_url port) = true).
  { unfold request_settles. now rewrite health_answered. }
  pose proof (test_embedded_run w port port_reachable Htruthy Hsettles
                ws_settles graphql_settles) as Hrun.
  pose proof (main_run w (Some port) port_read) as Hmain.
  cbv beta iota zeta in Hmain.
  assert (Hport : truthy_int port = true).
  { unfold truthy_int. now apply negb_true_iff, Z.eqb_neq. }
  rewrite Hport, Hrun in Hmain. exact (Hmain eq_refl).
Qed.

Lemma embedded_network :
  network (trace (Torque.main w))
  = [ Connect "127.0.0.1" port 5;
      HttpGet (Torque.health_url port) 5;
      HttpGet (Torque.ws_test_url port) 5;
      HttpGet (Torque.graphql_url port) 5 ].
Proof.
  rewrite main_embedded_run. unfold trace at 1. cbn [fst].
  rewrite !network_app, reader_only_prints, !network_map_Print.
  reflexivity.
Qed.

Lemma embedded_printed :
  printed (trace (Torque.main w))
  = ((printed banner ++ printed (trace (Torque.check_server_port_file w))
      ++ printed (embedded_events w port))
     ++ Torque.summary port ++ Torque.tips)%list.
Proof.
  rewrite main_embedded_run. unfold trace at 1. cbn [fst].
  rewrite !printed_app, !printed_map_Print, <- !app_assoc. reflexivity.
Qed.

End Embedded.

(** C7, as the code has it.  When the port read from the port file is
    not zero and is reachable over TCP, the health endpoint answers with a
    status code other than zero, and the requests to [/ws] and [/graphql]
    are answered or fail inside the request layer, the orchestrator
    connects once, requests [/health/health], [/ws] and [/graphql] in this
    order, and prints the connection summary, followed only by the
    troubleshooting tips. *)
Theorem embedded_checks_all_endpoints (w : World) (port : Z)
  (health : response) :
  outcome (Torque.check_server_port_file w) = inr (Some port) ->
  port <> 0 ->
  reachable w "127.0.0.1" port = true ->
  requests_get w (Torque.health_url port) = inr health ->
  status_code health <> 0 ->
  request_settles w (Torque.ws_test_url port) = true ->
  request_settles w (Torque.graphql_url port) = true ->
  network (trace (Torque.main w))
  = [ Connect "127.0.0.1" port 5;
      HttpGet (Torque.health_url port) 5;
      HttpGet (Torque.ws_test_url port) 5;
      HttpGet (Torque.graphql_url port) 5 ]
  /\ exists before,
       printed (trace (Torque.main w))
       = (before ++ Torque.summary port ++ Torque.tips)%list.
Proof.
  intros H1 H2 H3 H4 H5 H6 H7. split.
  - exact (embedded_network w port health H1 H2 H3 H4 H5 H6 H7).
  - eexists. exact (embedded_printed w port health H1 H2 H3 H4 H5 H6 H7).
Qed.

Lemma embedded_checks_all_endpoints_witness :
  network (trace (Torque.main (Sample.running 200)))
  = [ Connect "127.0.0.1" 4321 5;
      HttpGet "http://127.0.0.1:4321/health/health" 5;
      HttpGet "http://127.0.0.1:4321/ws" 5;
      HttpGet "http://127.0.0.1:4321/graphql" 5 ]
  /\ exists before,
       printed (trace (Torque.main (Sample.running 200)))
       = (before ++ Torque.summary 4321 ++ Torque.tips)%list.
Proof.
  apply (embedded_checks_all_endpoints (Sample.running 200) 4321
           {| status_code := 200; text := "ok" |});
    try reflexivity; simpl; lia.
Defined.

(** C7, as stated, fails: with port 4321 read from the port file and
    reachable, but the health request timing out, the orchestrator
    requests the health endpoint only and prints no summary. *)
Lemma health_failure_stops_checks :
  outcome (Torque.check_server_port_file Sample.hanging) = inr (Some 4321)
  /\ outcome (Torque.check_port_open Sample.hanging "127.0.0.1" 4321 5)
     = inr true
  /\ network (trace (Torque.main Sample.hanging))
     = [ Connect "127.0.0.1" 4321 5;
         HttpGet "http://127.0.0.1:4321/health/health" 5 ]
  /\ ~ In (HttpGet "http://127.0.0.1:4321/ws" 5)
          (trace (Torque.main Sample.hanging))
  /\ ~ In (HttpGet "http://127.0.0.1:4321/graphql" 5)
          (trace (Torque.main Sample.hanging))
  /\ ~ In (Torque.nl ++ "✅ Server appears to be running correctly!")
          (printed (trace (Torque.main Sample.hanging))).
Proof.
  repeat split; try reflexivity.
  all: intros H; vm_compute in H;
    repeat (destruct H as [H|H]; [discriminate H|]); exact H.
Qed.

(** C10.  With the port read from the port file (not zero) and reachable,
    whatever status code other than zero the health endpoint answers, 200
    or not, [main] returns and the lines it prints end with the connection
    summary for that very port, followed by the troubleshooting tips. *)
Theorem summary_for_any_status (w : World) (port : Z) (health : response) :
  outcome (Torque.check_server_port_file w) = inr (Some port) ->
  port <> 0 ->
  reachable w "127.0.0.1" port = true ->
  requests_get w (Torque.health_url port) = inr health ->
  status_code health <> 0 ->
  request_settles w (Torque.ws_test_url port) = true ->
  request_settles w (Torque.graphql_url port) = true ->
  outcome (Torque.main w) = inr tt
  /\ exists before,
       printed (trace (Torque.main w))
       = (before
          ++ [ (Torque.nl ++ "✅ Server appears to be running correctly!")%string;
               "🌐 Frontend should connect to:";
               ("   Base URL: http://127.0.0.1:" ++ str_of_int port)%string;
               ("   WebSocket: ws://127.0.0.1:" ++ str_of_int port
                ++ "/ws")%string;
               ("   GraphQL: http://127.0.0.1:" ++ str_of_int port
                ++ "/graphql")%string ]
          ++ Torque.tips)%list.
Proof.
  intros H1 H2 H3 H4 H5 H6 H7. split.
  - now rewrite (main_embedded_run w port health H1 H2 H3 H4 H5 H6 H7).
  - eexists. exact (embedded_printed w port health H1 H2 H3 H4 H5 H6 H7).
Qed.

Lemma summary_for_any_status_witness :
  (outcome (Torque.main (Sample.running 404)) = inr tt
   /\ exists before,
        printed (trace (Torque.main (Sample.running 404)))
        = (before
           ++ [ (Torque.nl ++ "✅ Server appears to be running correctly!")%string;
                "🌐 Frontend should connect to:";
                "   Base URL: http://127.0.0.1:4321";
                "   WebSocket: ws://127.0.0.1:4321/ws";
                "   GraphQL: http://127.0.0.1:4321/graphql" ]
           ++ Torque.tips)%list)
  /\ (outcome (Torque.main (Sample.running 500)) = inr tt
      /\ exists before,
           printed (trace (Torque.main (Sample.running 500)))
           = (before
              ++ [ (Torque.nl ++ "✅ Server appears to be running correctly!")%string;
                   "🌐 Frontend should connect to:";
                   "   Base URL: http://127.0.0.1:4321";
                   "   WebSocket: ws://127.0.0.1:4321/ws";
                   "   GraphQL: http://127.0.0.1:4321/graphql" ]
              ++ Torque.tips)%list).
Proof.
  split.
  - apply (summary_for_any_status (Sample.running 404) 4321
             {| status_code := 404; text := "ok" |});
      try reflexivity; simpl; lia.
  - apply (summary_for_any_status (Sample.running 500) 4321
             {| status_code := 500; text := "ok" |});
      try reflexivity; simpl; lia.
Defined.

(** C10, as stated, fails: with port 4321 read and reachable and the
    health endpoint answering 404, a [/ws] request that raises outside
    the request layer ends [main] with that exception, and no summary is
    printed. *)
Lemma ws_failure_prevents_summary :
  outcome (Torque.check_server_port_file Sample.ws_crash) = inr (Some 4321)
  /\ reachable Sample.ws_crash "127.0.0.1" 4321 = true
  /\ requests_get Sample.ws_crash "http://127.0.0.1:4321/health/health"
     = inr {| status_code := 404; text := "Not Found" |}
  /\ outcome (Torque.main Sample.ws_crash) = inl (RuntimeError "unexpected")
  /\ ~ In (Torque.nl ++ "✅ Server appears to be running correctly!")
          (printed (trace (Torque.main Sample.ws_crash)))
  /\ ~ In ("   WebSocket: ws://127.0.0.1:4321/ws")
          (printed (trace (Torque.main Sample.ws_crash))).
Proof.
  repeat split; try reflexivity.
  all: intros H; vm_compute in H;
    repeat (destruct H as [H|H]; [discriminate H|]); exact H.
Qed.

Lemma no_port_run (w : World) (server_port : option Z) :
  outcome (Torque.check_server_port_file w) = inr server_port ->
  truthy_opt_int server_port = false ->
  outcome (Torque.test_defaults w) = inr tt ->
  Torque.main w
  = ((banner ++ trace (Torque.check_server_port_file w)
      ++ trace (Torque.test_defaults w) ++ map Print Torque.tips)%list,
     inr tt).
Proof.
  intros Hread Hfalse Hrun.
  pose proof (main_run w server_port Hread) as Hmain.
  destruct server_port as [port|]; cbv beta iota zeta in Hmain.
  - cbn [truthy_opt_int] in Hfalse. rewrite Hfalse in Hmain. now apply Hmain.
  - now apply Hmain.
Qed.

(** C6, as the code has it.  When the port reader hands back no port
    (none, or the port 0), and the health request of every reachable
    fallback port is answered or fails inside the request layer, the
    orchestrator goes through 8080, 8081, 3000, 3001 in this order up to
    and including the first port that is reachable and whose health
    endpoint answers 200: each of these ports is probed over TCP, and the
    health request follows only for a port whose probe succeeded.  It then
    prints the port found, or that none was found. *)
Theorem fallback_scan (w : World) (server_port : option Z) :
  outcome (Torque.check_server_port_file w) = inr server_port ->
  truthy_opt_int server_port = false ->
  (forall p, In p [8080; 8081; 3000; 3001] ->
             reachable w "127.0.0.1" p = true ->
             request_settles w (Torque.health_url p) = true) ->
  network (trace (Torque.main w))
  = flat_map (probe w) (upto_first (serves w) [8080; 8081; 3000; 3001])
  /\ In match find (serves w) [8080; 8081; 3000; 3001] with
        | Some p => "✅ Found Torque server on port " ++ str_of_int p
        | None => "❌ No Torque server found on common ports"
        end
        (printed (trace (Torque.main w))).
Proof.
  intros Hread Hfalse Hsettle.
  destruct (test_defaults_run w Hsettle) as (Ho & Hn & Hp).
  rewrite (no_port_run w server_port Hread Hfalse Ho).
  unfold trace at 1 4. cbn [fst]. split.
  - rewrite !network_app, reader_only_prints, Hn, network_map_Print.
    cbn [banner network app]. now rewrite app_nil_r.
  - rewrite !printed_app, Hp. apply in_or_app. right.
    apply in_or_app. right. apply in_or_app. left.
    right. right. left. reflexivity.
Qed.

Lemma fallback_scan_witness :
  network (trace (Torque.main Sample.dev3000))
  = [ Connect "127.0.0.1" 8080 5; Connect "127.0.0.1" 8081 5;
      Connect "127.0.0.1" 3000 5;
      HttpGet "http://127.0.0.1:3000/health/health" 5 ]
  /\ In "✅ Found Torque server on port 3000"
        (printed (trace (Torque.main Sample.dev3000))).
Proof.
  apply (fallback_scan Sample.dev3000 None); try reflexivity.
  intros p [<-|[<-|[<-|[<-|[]]]]] _; reflexivity.
Defined.

(** C6, as stated, fails: with nothing installed and nothing listening,
    no port is read, port 8080 is scanned (a TCP probe is made), and no
    health request is issued for it, nor for any other port. *)
Lemma scanned_port_without_get :
  outcome (Torque.check_server_port_file Sample.bare) = inr None
  /\ In (Connect "127.0.0.1" 8080 5) (trace (Torque.main Sample.bare))
  /\ ~ In (HttpGet "http://127.0.0.1:8080/health/health" 5)
          (trace (Torque.main Sample.bare))
  /\ network (trace (Torque.main Sample.bare))
     = [ Connect "127.0.0.1" 8080 5; Connect "127.0.0.1" 8081 5;
         Connect "127.0.0.1" 3000 5; Connect "127.0.0.1" 3001 5 ].
Proof.
  repeat split; try reflexivity.
  - vm_compute. do 6 right. left. reflexivity.
  - intros H; vm_compute in H;
      repeat (destruct H as [H|H]; [discriminate H|]); exact H.
Qed.

(** C8.  With no data directory (the locator finds none) and none of the
    four fallback ports reachable, [main] returns normally and prints, in
    its place among the other lines, that no Torque server was found on
    the common ports. *)
Theorem nothing_found (w : World) :
  Torque.find_torque_data_dir w = None ->
  (forall p, In p [8080; 8081; 3000; 3001] ->
             reachable w "127.0.0.1" p = false) ->
  outcome (Torque.main w) = inr tt
  /\ printed (trace (Torque.main w))
     = [ "🔍 Torque Desktop Connection Diagnostic Tool";
         "==================================================";
         Torque.nl ++ "1. Checking for embedded server...";
         "❌ Could not find Torque data directory";
         "❌ No embedded server found";
         Torque.nl ++ "3. Testing default development endpoints...";
         "❌ No Torque server found on common ports";
         Torque.nl ++ "==================================================";
         "📋 Troubleshooting Tips:";
         "1. Make sure the Torque desktop app is running";
         "2. Check the app logs for server startup errors";
         "3. Try restarting the desktop application";
         "4. Check if any firewall is blocking local connections" ].
Proof.
  intros Hdir Hclosed.
  assert (Hread : Torque.check_server_port_file w
                  = ([Print "❌ Could not find Torque data directory"],
                     inr None)).
  { unfold Torque.check_server_port_file. now rewrite Hdir. }
  assert (Hsettle : forall p, In p Torque.test_ports ->
            reachable w "127.0.0.1" p = true ->
            request_settles w (Torque.health_url p) = true).
  { intros p Hp Hr. rewrite (Hclosed p Hp) in Hr. discriminate. }
  destruct (test_defaults_run w Hsettle) as (Ho & _ & Hp).
  assert (Hfind : find (serves w) Torque.test_ports = None).
  { unfold Torque.test_ports, serves. cbn [find].
    rewrite !Hclosed by (simpl; tauto). reflexivity. }
  rewrite Hfind in Hp.
  rewrite (no_port_run w None) by (rewrite ?Hread; auto).
  split; [reflexivity|].
  unfold trace at 1. cbn [fst].
  rewrite !printed_app, Hp, Hread, printed_map_Print. reflexivity.
Qed.

Lemma nothing_found_witness :
  outcome (Torque.main Sample.bare) = inr tt
  /\ In "❌ No Torque server found on common ports"
        (printed (trace (Torque.main Sample.bare))).
Proof.
  destruct (nothing_found Sample.bare) as [Hreturns Hlines].
  - reflexivity.
  - intros p [<-|[<-|[<-|[<-|[]]]]]; reflexivity.
  - split; [exact Hreturns|]. rewrite Hlines. do 6 right. left. reflexivity.
Defined.

End Orchestrator.

(** * Further properties *)

(** ** More on how computations run *)

Module BranchFacts.

Import Py Obs RunFacts.

Local Open Scope path_scope.

Section World.

Variable w : World.

Lemma trace_run {A} (t : list event) (r : exn + A) : trace (t, r) = t.
Proof. reflexivity. Qed.

Lemma outcome_run {A} (t : list event) (r : exn + A) : outcome (t, r) = r.
Proof. reflexivity. Qed.

Lemma bind_raise {A B} (t : list event) (e : exn) (k : A -> M B) :
  bind (t, inl e) k = (t, inl e).
Proof. reflexivity. Qed.

Lemma check_http_endpoint_raise url timeout e :
  requests_get w url = inl e -> is_RequestException e = false ->
  Torque.check_http_endpoint w url timeout = ([HttpGet url timeout], inl e).
Proof.
  intros Hget He. unfold Torque.check_http_endpoint, http_get.
  rewrite Hget. cbn. now rewrite He.
Qed.

Lemma test_embedded_closed port :
  reachable w "127.0.0.1" port = false ->
  Torque.test_embedded w port
  = ((Print (Torque.nl ++ "2. Testing embedded server on port "
             ++ str_of_int port ++ "...")
      :: attempt w port
      ++ [Print ("❌ Port " ++ str_of_int port ++ " is not accessible")])%list,
     inr tt).
Proof.
  intros Hr. unfold Torque.test_embedded, print, attempt.
  rewrite bind_run, check_port_open_run, bind_run, Hr. reflexivity.
Qed.

Lemma test_embedded_health_failed port :
  reachable w "127.0.0.1" port = true ->
  request_settles w (Torque.health_url port) = true ->
  truthy_opt_int (fst (answer w (Torque.health_url port))) = false ->
  Torque.test_embedded w port
  = ([ Print (Torque.nl ++ "2. Testing embedded server on port "
              ++ str_of_int port ++ "...");
       Connect "127.0.0.1" port 5;
       Print ("✅ Port " ++ str_of_int port ++ " is open");
       HttpGet (Torque.health_url port) 5;
       Print ("❌ Health endpoint failed: "
              ++ snd (answer w (Torque.health_url port))) ], inr tt).
Proof.
  intros Hr Sh Hf. unfold Torque.test_embedded, print.
  rewrite bind_run, check_port_open_run, bind_run, Hr.
  rewrite (reachable_socket w _ _ Hr), bind_run.
  rewrite (check_http_endpoint_run w _ 5 Sh), bind_run.
  destruct (answer w (Torque.health_url port)) as [hs hb].
  cbn [fst snd] in Hf |- *. rewrite Hf. reflexivity.
Qed.

Lemma test_embedded_health_raises port e :
  reachable w "127.0.0.1" port = true ->
  requests_get w (Torque.health_url port) = inl e ->
  is_RequestException e = false ->
  Torque.test_embedded w port
  = ([ Print (Torque.nl ++ "2. Testing embedded server on port "
              ++ str_of_int port ++ "...");
       Connect "127.0.0.1" port 5;
       Print ("✅ Port " ++ str_of_int port ++ " is open");
       HttpGet (Torque.health_url port) 5 ], inl e).
Proof.
  intros Hr Hget He. unfold Torque.test_embedded, print.
  rewrite bind_run, check_port_open_run, bind_run, Hr.
  rewrite (reachable_socket w _ _ Hr), bind_run.
  rewrite (check_http_endpoint_raise _ 5 e Hget He). reflexivity.
Qed.

Lemma test_embedded_returns port :
  request_settles w (Torque.health_url port) = true ->
  request_settles w (Torque.ws_test_url port) = true ->
  request_settles w (Torque.graphql_url port) = true ->
  outcome (Torque.test_embedded w port) = inr tt.
Proof.
  intros Sh Sw Sg.
  destruct (reachable w "127.0.0.1" port) eqn:Hr.
  - destruct (truthy_opt_int (fst (answer w (Torque.health_url port)))) eqn:Ht.
    + now rewrite (test_embedded_run w port Hr Ht Sh Sw Sg).
    + now rewrite (test_embedded_health_failed port Hr Sh Ht).
  - now rewrite (test_embedded_closed port Hr).
Qed.

(** [main] when the port reader returns and the branch taken raises. *)
Lemma main_raise server_port e :
  outcome (Torque.check_server_port_file w) = inr server_port ->
  let branch :=
    match server_port with
    | Some port =>
        if truthy_int port then Torque.test_embedded w port
        else Torque.test_defaults w
    | None => Torque.test_defaults w
    end in
  outcome branch = inl e ->
  Torque.main w
  = ((banner ++ trace (Torque.check_server_port_file w) ++ trace branch)%list,
     inl e).
Proof.
  intros Hreader branch Hbranch. unfold Torque.main, print.
  rewrite !bind_run.
  rewrite (run_eta (Torque.check_server_port_file w)), Hreader, bind_run.
  fold branch. rewrite (run_eta branch), Hbranch, bind_raise.
  unfold trace, outcome. cbn [fst snd app]. reflexivity.
Qed.

Lemma truthy_nonzero port : port <> 0 -> truthy_int port = true.
Proof. intros H. unfold truthy_int. now apply negb_true_iff, Z.eqb_neq. Qed.

End World.

End BranchFacts.

(** ** Edges of the port reader *)

Module PortReaderEdges.

Import Py Obs RunFacts.

Local Open Scope path_scope.



(** X3.  When [server_port.txt] exists but reading it raises an
    [Exception] (no permission, undecodable bytes), the port reader prints
    the text of the exception in one line and returns none; when it is a
    directory, it prints the error of [open] in one line and returns
    none. *)
Theorem unreadable_port_file (w : World) (d : path) :
  Torque.find_torque_data_dir w = Some d ->
  let port_file := d // "server_port.txt" in
  (forall e, resolve (root w) port_file = Some (File (inl e)) ->
             is_Exception e = true ->
             Torque.check_server_port_file w
             = ([Print ("❌ Error reading port file: " ++ str_of_exn e)],
                inr None))
  /\ (forall entries, resolve (root w) port_file = Some (Dir entries) ->
        exists reason,
          Torque.check_server_port_file w
          = ([Print ("❌ Error reading port file: " ++ reason)], inr None)).
Proof.
  intros Hdir port_file. unfold Torque.check_server_port_file.
  rewrite Hdir. fold port_file. split.
  - intros e Hres He. rewrite (path_exists_resolve w _ _ Hres). cbn [negb].
    unfold open_read. rewrite Hres. cbn. now rewrite He.
  - intros entries Hres. rewrite (path_exists_resolve w _ _ Hres). cbn [negb].
    unfold open_read. rewrite Hres. eexists. reflexivity.
Qed.




Lemma unreadable_port_file_witness :
  Torque.check_server_port_file Sample.locked
  = ([Print ("❌ Error reading port file: "
             ++ "[Errno 13] Permission denied")], inr None)
  /\ exists reason,
       Torque.check_server_port_file Sample.port_dir
       = ([Print ("❌ Error reading port file: " ++ reason)], inr None).
Proof.
  split.
  - exact (proj1 (unreadable_port_file Sample.locked
                    ["/home/u"; ".local"; "share"; "com.torque.desktop"]
                    eq_refl)
             (OSError "[Errno 13] Permission denied") eq_refl eq_refl).
  - exact (proj2 (unreadable_port_file Sample.port_dir
                    ["/home/u"; ".local"; "share"; "com.torque.desktop"]
                    eq_refl) [] eq_refl).
Defined.


End PortReaderEdges.

(** ** Edges of the orchestrator *)

Module OrchestratorEdges.

Import Py Obs RunFacts BranchFacts.

(** X5.  When the port read from the port file is not zero and not
    reachable, [main] makes that one connection attempt only: it scans no
    fallback port and sends no request, prints that the port is not
    accessible, then the tips, and returns. *)
Theorem closed_port_no_fallback (w : World) (port : Z) :
  outcome (Torque.check_server_port_file w) = inr (Some port) ->
  port <> 0 ->
  reachable w "127.0.0.1" port = false ->
  outcome (Torque.main w) = inr tt
  /\ network (trace (Torque.main w)) = attempt w port
  /\ printed (trace (Torque.main w))
     = (printed banner ++ printed (trace (Torque.check_server_port_file w))
        ++ [ Torque.nl ++ "2. Testing embedded server on port "
             ++ str_of_int port ++ "...";
             "❌ Port " ++ str_of_int port ++ " is not accessible" ]%string
        ++ Torque.tips)%list.
Proof.
  intros Hread Hport Hr.
  pose proof (main_run w (Some port) Hread) as Hmain.
  cbv beta iota zeta in Hmain.
  rewrite (truthy_nonzero port Hport), (test_embedded_closed w port Hr) in Hmain.
  rewrite (Hmain eq_refl), !trace_run, outcome_run.
  split; [reflexivity|]. split.
  - rewrite !network_app, reader_only_prints, network_map_Print.
    cbn [banner network app]. rewrite ?network_app. cbn [network].
    rewrite ?app_nil_r. unfold attempt. now destruct (socket_socket w).
  - rewrite !printed_app, printed_map_Print. do 2 f_equal.
    cbn [printed]. rewrite ?printed_app. unfold attempt.
    destruct (socket_socket w); reflexivity.
Qed.

Lemma closed_port_no_fallback_witness :
  outcome (Torque.main Sample.closed) = inr tt
  /\ network (trace (Torque.main Sample.closed))
     = [Connect "127.0.0.1" 4321 5].
Proof.
  destruct (closed_port_no_fallback Sample.closed 4321) as (Hret & Hnet & _);
    try reflexivity; try lia.
  split; [exact Hret | exact Hnet].
Defined.

(** X6.  When the port read is not zero and reachable and the health
    request fails with a [RequestException], [main] requests nothing
    else, prints the failure with the text of the exception in place of
    the summary, then the tips, and returns. *)
Theorem health_failure_ends_checks (w : World) (port : Z) (e : exn) :
  outcome (Torque.check_server_port_file w) = inr (Some port) ->
  port <> 0 ->
  reachable w "127.0.0.1" port = true ->
  requests_get w (Torque.health_url port) = inl e ->
  is_RequestException e = true ->
  outcome (Torque.main w) = inr tt
  /\ network (trace (Torque.main w))
     = [ Connect "127.0.0.1" port 5; HttpGet (Torque.health_url port) 5 ]
  /\ printed (trace (Torque.main w))
     = (printed banner ++ printed (trace (Torque.check_server_port_file w))
        ++ [ Torque.nl ++ "2. Testing embedded server on port "
             ++ str_of_int port ++ "...";
             "✅ Port " ++ str_of_int port ++ " is open";
             "❌ Health endpoint failed: " ++ str_of_exn e ]%string
        ++ Torque.tips)%list.
Proof.
  intros Hread Hport Hr Hget He.
  assert (Hs : request_settles w (Torque.health_url port) = true).
  { unfold request_settles. now rewrite Hget. }
  assert (Ha : answer w (Torque.health_url port) = (None, str_of_exn e)).
  { unfold answer. now rewrite Hget. }
  assert (Hf : truthy_opt_int (fst (answer w (Torque.health_url port)))
               = false) by now rewrite Ha.
  pose proof (main_run w (Some port) Hread) as Hmain.
  cbv beta iota zeta in Hmain.
  rewrite (truthy_nonzero port Hport) in Hmain.
  rewrite (test_embedded_health_failed w port Hr Hs Hf), Ha in Hmain.
  rewrite (Hmain eq_refl), !trace_run, outcome_run.
  split; [reflexivity|]. split.
  - rewrite !network_app, reader_only_prints, network_map_Print. reflexivity.
  - rewrite !printed_app, printed_map_Print. reflexivity.
Qed.

(** X7.  When the port read is not zero and reachable and the health
    request raises an exception that is not a [RequestException], [main]
    ends with that exception right after the request: the troubleshooting
    tips are not printed. *)
Theorem foreign_exception_aborts (w : World) (port : Z) (e : exn) :
  outcome (Torque.check_server_port_file w) = inr (Some port) ->
  port <> 0 ->
  reachable w "127.0.0.1" port = true ->
  requests_get w (Torque.health_url port) = inl e ->
  is_RequestException e = false ->
  Torque.main w
  = ((banner ++ trace (Torque.check_server_port_file w)
      ++ [ Print (Torque.nl ++ "2. Testing embedded server on port "
                  ++ str_of_int port ++ "...");
           Connect "127.0.0.1" port 5;
           Print ("✅ Port " ++ str_of_int port ++ " is open");
           HttpGet (Torque.health_url port) 5 ])%list, inl e).
Proof.
  intros Hread Hport Hr Hget He.
  pose proof (main_raise w (Some port) e Hread) as Hmain.
  cbv beta iota zeta in Hmain.
  rewrite (truthy_nonzero port Hport) in Hmain.
  rewrite (test_embedded_health_raises w port e Hr Hget He) in Hmain.
  exact (Hmain eq_refl).
Qed.

(** X8.  When the port reader returns and every request is answered or
    fails inside the request layer, [main] returns, and what it did begins
    with the banner and ends with the troubleshooting tips. *)
Theorem returns_and_ends_with_tips (w : World) (server_port : option Z) :
  outcome (Torque.check_server_port_file w) = inr server_port ->
  (forall url, request_settles w url = true) ->
  outcome (Torque.main w) = inr tt
  /\ exists middle,
       trace (Torque.main w)
       = (banner ++ middle ++ map Print Torque.tips)%list.
Proof.
  intros Hread Hs.
  pose proof (main_run w server_port Hread) as Hmain. cbv zeta in Hmain.
  match type of Hmain with
  | outcome ?b = _ -> _ => assert (Hb : outcome b = inr tt)
  end.
  { destruct server_port as [port|].
    - destruct (truthy_int port).
      + apply test_embedded_returns; apply Hs.
      + apply (test_defaults_run w). intros; apply Hs.
    - apply (test_defaults_run w). intros; apply Hs. }
  rewrite (Hmain Hb), trace_run, outcome_run. split; [reflexivity|].
  match type of Hb with
  | outcome ?b = _ =>
      exists (trace (Torque.check_server_port_file w) ++ trace b)%list
  end.
  now rewrite <- app_assoc.
Qed.

Lemma health_failure_ends_checks_witness :
  outcome (Torque.main Sample.hanging) = inr tt
  /\ network (trace (Torque.main Sample.hanging))
     = [ Connect "127.0.0.1" 4321 5;
         HttpGet "http://127.0.0.1:4321/health/health" 5 ].
Proof.
  destruct (health_failure_ends_checks Sample.hanging 4321
              (RequestException "Read timed out."))
    as (Hret & Hnet & _); try reflexivity; try lia.
  split; [exact Hret | exact Hnet].
Defined.

Lemma foreign_exception_aborts_witness :
  outcome (Torque.main Sample.aborted) = inl KeyboardInterrupt.
Proof.
  rewrite (foreign_exception_aborts Sample.aborted 4321 KeyboardInterrupt);
    try reflexivity; lia.
Defined.

Lemma returns_and_ends_with_tips_witness :
  outcome (Torque.main Sample.bare) = inr tt
  /\ exists middle,
       trace (Torque.main Sample.bare)
       = (banner ++ middle ++ map Print Torque.tips)%list.
Proof.
  apply (returns_and_ends_with_tips Sample.bare None); [reflexivity|].
  intros url. reflexivity.
Defined.

Lemma local_bind {A B} (m : M A) (k : A -> M B) :
  local (trace m) -> (forall a, local (trace (k a))) ->
  local (trace (bind m k)).
Proof.
  destruct m as [t [e|a]]; intros Hm Hk; [exact Hm|].
  rewrite bind_run, trace_run. apply Forall_app. split; [exact Hm|apply Hk].
Qed.

Lemma local_print l : local (trace (print l)).
Proof. repeat constructor. Qed.

Lemma local_print_all lines : local (trace (Torque.print_all lines)).
Proof.
  rewrite print_all_run, trace_run. induction lines; constructor; auto.
Qed.

Lemma local_check_port_open w port :
  local (trace (Torque.check_port_open w "127.0.0.1" port 5)).
Proof.
  rewrite check_port_open_run, trace_run.
  destruct (socket_socket w); repeat constructor.
Qed.

Lemma check_http_endpoint_trace w url timeout :
  trace (Torque.check_http_endpoint w url timeout) = [HttpGet url timeout].
Proof.
  unfold Torque.check_http_endpoint, http_get.
  destruct (requests_get w url) as [e|r]; cbn -[take]; [|reflexivity].
  destruct (is_RequestException e); reflexivity.
Qed.

Lemma local_check_http_endpoint w url :
  starts_with "http://127.0.0.1:" url = true ->
  local (trace (Torque.check_http_endpoint w url 5)).
Proof.
  intros H. rewrite check_http_endpoint_trace.
  constructor; [|constructor]. cbn [local_event]. now rewrite H.
Qed.

Lemma local_prints t : network t = [] -> local t.
Proof.
  unfold local. induction t as [|e t IH]; [constructor|].
  destruct e; cbn [network]; intros H; try discriminate H.
  constructor; [reflexivity|exact (IH H)].
Qed.

Lemma local_reader w : local (trace (Torque.check_server_port_file w)).
Proof. apply local_prints, reader_only_prints. Qed.

Lemma local_test_embedded w port : local (trace (Torque.test_embedded w port)).
Proof.
  unfold Torque.test_embedded.
  repeat first
    [ apply local_print | apply local_print_all | apply local_check_port_open
    | apply local_check_http_endpoint; reflexivity
    | apply local_bind; [|intros]
    | match goal with
      | |- local (trace (if ?b then _ else _)) => destruct b
      | |- local (trace (let '(_, _) := ?r in _)) => destruct r
      end ].
Qed.

Lemma local_scan_ports w ports : local (trace (Torque.scan_ports w ports)).
Proof.
  induction ports as [|p ports IH]; cbn [Torque.scan_ports].
  - apply local_print.
  - repeat first
      [ exact IH | apply local_print | apply local_check_port_open
      | apply local_check_http_endpoint; reflexivity
      | apply local_bind; [|intros]
      | match goal with
        | |- local (trace (if ?b then _ else _)) => destruct b
        | |- local (trace (let '(_, _) := ?r in _)) => destruct r
        end ].
Qed.

(** X9.  Whatever the machine answers, every connection [main] attempts
    goes to host 127.0.0.1, every URL it requests begins with
    [http://127.0.0.1:], and each of them has the timeout of 5 seconds. *)
Theorem only_local_network (w : World) :
  Forall (fun e => local_event e = true) (trace (Torque.main w)).
Proof.
  change (local (trace (Torque.main w))). unfold Torque.main.
  repeat first
    [ apply local_print | apply local_print_all | apply local_reader
    | apply local_test_embedded | apply local_scan_ports
    | apply local_bind; [|intros]
    | progress unfold Torque.test_defaults
    | match goal with
      | |- local (trace (if ?b then _ else _)) => destruct b
      | |- local (trace (match ?o with Some _ => _ | None => _ end)) =>
          destruct o
      end ].
Qed.

End OrchestratorEdges.

(** ** Sample runs *)

Module Samples.

Import Py Obs.

Example strip_4321 : strip "  4321  " = "4321".
Proof. reflexivity. Qed.

Example int_accepts :
  int_of_str 4300 "  4321  " = Some 4321 /\ int_of_str 4300 "-17" = Some (-17)
  /\ int_of_str 4300 "+007" = Some 7 /\ int_of_str 4300 "1_000" = Some 1000.
Proof. repeat split. Qed.

Example int_rejects :
  map (int_of_str 4300)
      [EmptyString; "12 34"; "_1"; "1__0"; "1_"; "+ 1"; "80a"; "-"; "4321.0"]
  = [None; None; None; None; None; None; None; None; None].
Proof. reflexivity. Qed.

Example int_limit :
  parse_int 4300 (repeat_char "1" 4301) = ExceedsLimit 4301
  /\ parse_int 0 (repeat_char "0" 4301) = IntValue 0
  /\ int_of_str 4300 (repeat_char "0" 4300) = Some 0.
Proof. repeat split; vm_compute; reflexivity. Qed.

Example int_messages :
  outcome (int Sample.bare "80a")
  = inl (ValueError "invalid literal for int() with base 10: '80a'")
  /\ outcome (int Sample.bare "it's")
     = inl (ValueError
              (String.append "invalid literal for int() with base 10: "
                 (String double_quote
                    (String.append "it's" (String double_quote EmptyString))))).
Proof. split; reflexivity. Qed.

Example windows_locator :
  Torque.find_torque_data_dir Sample.windows
  = Some ["C:\Users\u\AppData\Roaming"; "com.torque.desktop"]
  /\ outcome (Torque.check_server_port_file Sample.windows) = inr (Some 5000).
Proof. split; reflexivity. Qed.

Example dev3000_lines :
  printed (trace (Torque.test_defaults Sample.dev3000))
  = [ "❌ No embedded server found";
      Torque.nl ++ "3. Testing default development endpoints...";
      "✅ Found Torque server on port 3000" ].
Proof. reflexivity. Qed.

End Samples.
